(** * athena_query_executor.py: a shallow embedding

    The module runs one Athena query through boto3, polls it to completion,
    derives the S3 address of the result CSV and downloads it.  The model
    follows the Python source: Python strings are [string], a raised
    exception is a value of [exn], and the boto3 services are an explicit
    [world] threaded through a small state-and-exception monad. *)

From Stdlib Require Import String Ascii List Bool Arith Lia.
Import ListNotations.
Open Scope list_scope.
Open Scope string_scope.

(** ** Python exceptions *)

(** The exception classes the module can raise.  [Exception] is the bare
    [raise Exception(...)] of [execute_athena_query]; [ValueError] comes from
    [parse_s3_uri]; [KeyError] from a missing dictionary key; [ClientError]
    stands for the botocore errors raised by boto3 calls. *)
Inductive exn : Type :=
| Exception (msg : string)
| ValueError (msg : string)
| KeyError (key : string)
| ClientError (msg : string).

(** [str(e)]: what [f"{e}"] prints.  A [KeyError] prints its key quoted. *)
Definition str_exn (e : exn) : string :=
  match e with
  | Exception m | ValueError m | ClientError m => m
  | KeyError k => "'" ++ k ++ "'"
  end.

(** Result of a computation: a value, a raised exception, or [Pending] when
    the modelled query service has no further answer to give (the real
    program would still be polling). *)
Inductive outcome (A : Type) : Type :=
| Ok (a : A)
| Raise (e : exn)
| Pending.
Arguments Ok {A} a.
Arguments Raise {A} e.
Arguments Pending {A}.

(** ** String helpers: [str.startswith], slicing, [split(sep, 1)], [rstrip] *)

(** [s[n:]] *)
Fixpoint str_drop (n : nat) (s : string) : string :=
  match n, s with
  | O, _ => s
  | S n', String _ s' => str_drop n' s'
  | S _, EmptyString => EmptyString
  end.

(** [s.split(sep, 1)] for a one-character separator: the part before the
    first [sep] and the rest, or [[s]] when [sep] does not occur. *)
Fixpoint split_once (sep : ascii) (s : string) : list string :=
  match s with
  | EmptyString => [EmptyString]
  | String c s' =>
      if Ascii.eqb c sep then [EmptyString; s']
      else match split_once sep s' with
           | x :: rest => String c x :: rest
           | [] => [String c EmptyString]
           end
  end.

(** Drop the leading characters equal to [c] of a character list. *)
Fixpoint lstrip_chars (c : ascii) (l : list ascii) : list ascii :=
  match l with
  | [] => []
  | d :: l' => if Ascii.eqb d c then lstrip_chars c l' else l
  end.

(** [s.rstrip(c)] for one character [c]: reverse, strip the front,
    reverse back. *)
Definition rstrip (c : ascii) (s : string) : string :=
  string_of_list_ascii (rev (lstrip_chars c (rev (list_ascii_of_string s)))).

Definition slash : ascii := "/"%char.

(** ** [parse_s3_uri] *)

Definition S3_PREFIX : string := "s3://".

(** <<
    if not s3_uri.startswith("s3://"):
        raise ValueError("Invalid S3 URI. Must start with 's3://'")
    parts = s3_uri[5:].split("/", 1)
    if len(parts) != 2:
        raise ValueError("Invalid S3 URI format.")
    return parts[0], parts[1]
>> *)
Definition parse_s3_uri (s3_uri : string) : outcome (string * string) :=
  if negb (String.prefix S3_PREFIX s3_uri) then
    Raise (ValueError "Invalid S3 URI. Must start with 's3://'")
  else
    let parts := split_once slash (str_drop 5 s3_uri) in
    if negb (Nat.eqb (List.length parts) 2) then Raise (ValueError "Invalid S3 URI format.")
    else match parts with
         | [bucket; key] => Ok (bucket, key)
         | _ => Raise (ValueError "Invalid S3 URI format.")
         end.

(** ** [ensure_no_trailing_slash] *)

(** [return s.rstrip('/')] *)
Definition ensure_no_trailing_slash (s : string) : string := rstrip slash s.


(** ** The boto3 services *)

(** One answer of [client.get_query_execution]: the fields
    [response['QueryExecution']['Status']['State']] and, when the service
    attached one, [['StateChangeReason']] (the key is optional). *)
Record response : Type := mkResponse {
  State : string;
  StateChangeReason : option string
}.

(** Observable effects, in the order the program performs them. *)
Inductive event : Type :=
| EvSession (profile_name : string)
| EvStartQueryExecution (query database output_location : string)
| EvGetQueryExecution (query_execution_id : string)
| EvSleep (seconds : nat)
| EvDownloadFile (bucket key output_file : string)
| EvPrint (line : string).

(** The environment the program talks to. *)
Record world : Type := mkWorld {
  start_error : option string;        (** [start_query_execution] raises this *)
  query_execution_id : string;        (** otherwise the id it returns *)
  responses : list response;          (** successive [get_query_execution] answers *)
  s3_error : string -> string -> option string;
                                      (** [download_file bucket key] raises this *)
  log : list event                    (** effects performed so far, oldest first *)
}.

Definition emit (ev : event) (w : world) : world :=
  mkWorld (start_error w) (query_execution_id w) (responses w) (s3_error w)
          (log w ++ [ev])%list.

Definition set_responses (rs : list response) (w : world) : world :=
  mkWorld (start_error w) (query_execution_id w) rs (s3_error w) (log w).

(** ** A state and exception monad *)

Definition M (A : Type) : Type := world -> outcome A * world.

Definition ret {A} (a : A) : M A := fun w => (Ok a, w).

Definition bind {A B} (m : M A) (f : A -> M B) : M B := fun w =>
  match m w with
  | (Ok a, w') => f a w'
  | (Raise e, w') => (Raise e, w')
  | (Pending, w') => (Pending, w')
  end.

Notation "x <- m ;; k" := (bind m (fun x => k))
  (at level 61, m at next level, right associativity).
Notation "' p <- m ;; k" := (bind m (fun x => match x with p => k end))
  (at level 61, p pattern, m at next level, right associativity).

Definition raise {A} (e : exn) : M A := fun w => (Raise e, w).
Definition pending {A} : M A := fun w => (Pending, w).
Definition lift {A} (o : outcome A) : M A := fun w => (o, w).

(** [try: m except Exception as e: h(e)] *)
Definition try_except {A} (m : M A) (h : exn -> M A) : M A := fun w =>
  match m w with
  | (Raise e, w') => h e w'
  | r => r
  end.

Definition print (line : string) : M unit := fun w => (Ok tt, emit (EvPrint line) w).
Definition sleep (seconds : nat) : M unit := fun w => (Ok tt, emit (EvSleep seconds) w).

(** [boto3.Session(profile_name=profile)] and [session.client(...)]. *)
Definition boto3_session (profile : string) : M unit :=
  fun w => (Ok tt, emit (EvSession profile) w).

Definition start_query_execution (query database output_location : string) : M string :=
  fun w =>
    let w' := emit (EvStartQueryExecution query database output_location) w in
    match start_error w with
    | Some m => (Raise (ClientError m), w')
    | None => (Ok (query_execution_id w), w')
    end.

Definition get_query_execution (qid : string) : M response :=
  fun w =>
    let w' := emit (EvGetQueryExecution qid) w in
    match responses w with
    | r :: rs => (Ok r, set_responses rs w')
    | [] => (Pending, w')
    end.

Definition download_file (bucket key output_file : string) : M unit :=
  fun w =>
    let w' := emit (EvDownloadFile bucket key output_file) w in
    match s3_error w bucket key with
    | Some m => (Raise (ClientError m), w')
    | None => (Ok tt, w')
    end.

(** Number of answers the service model still has; used as the loop's fuel. *)
Definition polls_left : M nat := fun w => (Ok (List.length (responses w)), w).

(** [x in [..]] for a list of strings. *)
Definition in_list (x : string) (l : list string) : bool :=
  existsb (String.eqb x) l.

Definition TERMINAL : list string := ["SUCCEEDED"; "FAILED"; "CANCELLED"].
Definition WAITING : list string := ["RUNNING"; "QUEUED"].

(** ** [execute_athena_query] *)

(** The polling loop.  [last] is the [response] variable: [None] stands for
    the [start_query_execution] reply, which has no ['QueryExecution'] key.
    <<
    while status in ['RUNNING', 'QUEUED']:
        response = client.get_query_execution(QueryExecutionId=query_execution_id)
        status = response['QueryExecution']['Status']['State']
        if status in ['SUCCEEDED', 'FAILED', 'CANCELLED']:
            break
        time.sleep(2)
    >>
    Each iteration consumes one service answer, so [fuel] at one more than
    the number of answers never runs out before [get_query_execution]
    reports [Pending]. *)
Fixpoint wait_loop (fuel : nat) (qid status : string) (last : option response)
  : M (string * option response) :=
  if in_list status WAITING then
    match fuel with
    | O => pending
    | S fuel' =>
        r <- get_query_execution qid ;;
        let status' := State r in
        if in_list status' TERMINAL then ret (status', Some r)
        else (_ <- sleep 2 ;; wait_loop fuel' qid status' (Some r))
    end
  else ret (status, last).

(** <<
    if status == 'SUCCEEDED':
        return f"{output_location}/{query_execution_id}.csv"
    else:
        raise Exception(f"Query {status}: {response['QueryExecution']['Status']['StateChangeReason']}")
    >> *)
Definition finish (output_location qid status : string) (last : option response)
  : M string :=
  if String.eqb status "SUCCEEDED" then
    ret (output_location ++ "/" ++ qid ++ ".csv")
  else
    match last with
    | None => raise (KeyError "QueryExecution")
    | Some r =>
        match StateChangeReason r with
        | None => raise (KeyError "StateChangeReason")
        | Some reason => raise (Exception ("Query " ++ status ++ ": " ++ reason))
        end
    end.

Definition execute_athena_query (query database output_location profile : string)
  : M string :=
  _ <- boto3_session profile ;;
  qid <- start_query_execution query database output_location ;;
  n <- polls_left ;;
  '(status, last) <- wait_loop (S n) qid "RUNNING" None ;;
  finish output_location qid status last.

(** ** [download_csv_from_s3] *)

Definition download_csv_from_s3 (s3_uri profile output_file : string) : M unit :=
  _ <- boto3_session profile ;;
  '(s3_bucket, s3_key) <- lift (parse_s3_uri s3_uri) ;;
  download_file s3_bucket s3_key output_file.

(** ** Command line and [main] *)

(** [os.environ] as a partial map from names to values. *)
Definition environ : Type := string -> option string.

Definition DEFAULT_S3_OUTPUT_URL : string := "s3://foo".

(** [__DEFAULT_PROFILE = "aberezin" if "AWS_PROFILE" not in os.environ
      else os.environ["AWS_PROFILE"]] *)
Definition DEFAULT_PROFILE (env : environ) : string :=
  match env "AWS_PROFILE" with
  | None => "aberezin"
  | Some p => p
  end.

(** The parsed [args] namespace. *)
Record args : Type := mkArgs {
  arg_query : string;
  arg_database : string;
  arg_output_location : string;
  arg_profile : string;
  arg_output_file : string
}.

(** [parse_args] for a command line giving the positional [query] and, for
    each option, [Some value] when the flag was passed. *)
Definition parse_args (env : environ) (query : string)
  (database output_location profile output_file : option string) : args :=
  mkArgs query
    (match database with Some d => d | None => "stb_dev_tedm" end)
    (match output_location with Some o => o | None => DEFAULT_S3_OUTPUT_URL end)
    (match profile with Some p => p | None => DEFAULT_PROFILE env end)
    (match output_file with Some f => f | None => "out.csv" end).

(** The body of the [try] block of [main]. *)
Definition main_body (a : args) : M unit :=
  s3_uri <- execute_athena_query (arg_query a) (arg_database a)
              (ensure_no_trailing_slash (arg_output_location a)) (arg_profile a) ;;
  _ <- print ("Query succeeded. Result saved in: " ++ s3_uri) ;;
  _ <- download_csv_from_s3 s3_uri (arg_profile a) (arg_output_file a) ;;
  print ("CSV downloaded successfully to: " ++ arg_output_file a).

Definition main (a : args) : M unit :=
  try_except (main_body a) (fun e => print ("Error: " ++ str_exn e)).

(** Process exit status: [main] returning gives 0, an uncaught exception 1;
    [None] while the program is still running. *)
Definition exit_code {A} (o : outcome A) : option nat :=
  match o with
  | Ok _ => Some 0
  | Raise _ => Some 1
  | Pending => None
  end.

(** The end-to-end scenario of the spec: handle [h1], one [RUNNING] poll,
    then [SUCCEEDED]. *)
Definition scenario_world : world :=
  mkWorld None "h1"
    [mkResponse "RUNNING" None; mkResponse "SUCCEEDED" None]
    (fun _ _ => None) [].

(** ** Predicates used in the statements *)

(** [c in s] for a character. *)
Fixpoint has_char (c : ascii) (s : string) : bool :=
  match s with
  | EmptyString => false
  | String d s' => Ascii.eqb d c || has_char c s'
  end.

(** [s.startswith('/')] *)
Definition starts_with_slash (s : string) : bool :=
  match s with
  | String c _ => Ascii.eqb c slash
  | EmptyString => false
  end.

(** [s.endswith('/')] *)
Definition ends_with_slash (s : string) : bool :=
  match rev (list_ascii_of_string s) with
  | c :: _ => Ascii.eqb c slash
  | [] => false
  end.

(** The [get_query_execution] answer says the query is still waiting / done. *)
Definition waiting (r : response) : bool := in_list (State r) WAITING.
Definition terminal (r : response) : bool := in_list (State r) TERMINAL.

(** The calls of a polling loop that sees [n] waiting answers and then a
    terminal one. *)
Definition poll_events (qid : string) (n : nat) : list event :=
  concat (repeat [EvGetQueryExecution qid; EvSleep 2] n) ++ [EvGetQueryExecution qid].

(** The world after that loop: [post] answers are left. *)
Definition after_polls (w : world) (qid : string) (n : nat) (post : list response)
  : world :=
  mkWorld (start_error w) (query_execution_id w) post (s3_error w)
          (log w ++ poll_events qid n)%list.

(** The Athena states of the spec: [RUNNING], [QUEUED], [SUCCEEDED],
    [FAILED], [CANCELLED]. *)
Definition known_state (r : response) : bool := in_list (State r) (WAITING ++ TERMINAL).

(** Number of [get_query_execution] calls in a list of effects. *)
Fixpoint count_get_calls (l : list event) : nat :=
  match l with
  | [] => O
  | EvGetQueryExecution _ :: l' => S (count_get_calls l')
  | _ :: l' => count_get_calls l'
  end.

(** No [download_file] call among the effects. *)
Definition no_download (l : list event) : bool :=
  forallb (fun ev => match ev with EvDownloadFile _ _ _ => false | _ => true end) l.

(** The exception [execute_athena_query] raises on a non-success terminal
    answer [r], spelled out from its [else] branch. *)
Definition query_failure_exn (r : response) : exn :=
  match StateChangeReason r with
  | Some reason => Exception ("Query " ++ State r ++ ": " ++ reason)
  | None => KeyError "StateChangeReason"
  end.

(** [n] slash characters. *)
Definition slashes (n : nat) : string := string_of_list_ascii (repeat slash n).

(** * Properties *)

(** ** Sanity checks on concrete inputs *)

Example parse_ex1 : parse_s3_uri "s3://b/out/h1.csv" = Ok ("b", "out/h1.csv").
Proof. reflexivity. Qed.
Example parse_ex2 : parse_s3_uri "s3://bucket/" = Ok ("bucket", "").
Proof. reflexivity. Qed.
Example strip_ex : ensure_no_trailing_slash "s3://" = "s3:".
Proof. reflexivity. Qed.
Example scenario_run :
  main (mkArgs "SELECT 1" "db1" "s3://b/out" "p" "out.csv") scenario_world
  = (Ok tt,
     mkWorld None "h1" [] (fun _ _ => None)
       [EvSession "p"; EvStartQueryExecution "SELECT 1" "db1" "s3://b/out";
        EvGetQueryExecution "h1"; EvSleep 2; EvGetQueryExecution "h1";
        EvPrint "Query succeeded. Result saved in: s3://b/out/h1.csv";
        EvSession "p"; EvDownloadFile "b" "out/h1.csv" "out.csv";
        EvPrint "CSV downloaded successfully to: out.csv"]).
Proof. reflexivity. Qed.

Example failed_with_reason_run :
  main (mkArgs "SELECT 1" "db1" "s3://b/out/" "p" "out.csv")
    (mkWorld None "h1" [mkResponse "FAILED" (Some "SYNTAX_ERROR")] (fun _ _ => None) [])
  = (Ok tt,
     mkWorld None "h1" [] (fun _ _ => None)
       [EvSession "p"; EvStartQueryExecution "SELECT 1" "db1" "s3://b/out";
        EvGetQueryExecution "h1"; EvPrint "Error: Query FAILED: SYNTAX_ERROR"]).
Proof. reflexivity. Qed.

(** ** Parser lemmas *)

Lemma prefix_drop : forall p s,
  String.prefix p s = true -> s = p ++ str_drop (String.length p) s.
Proof.
  induction p as [|a p IH]; intros s H; [reflexivity|].
  destruct s as [|b s]; simpl in H; [discriminate|].
  destruct (ascii_dec a b) as [->|]; [|discriminate].
  simpl. f_equal. apply IH, H.
Qed.

Lemma prefix_app : forall p r, String.prefix p (p ++ r) = true.
Proof.
  induction p as [|a p IH]; intros r; simpl; [destruct r; reflexivity|].
  destruct (ascii_dec a a) as [_|n]; [apply IH|contradiction].
Qed.

Lemma str_drop_app : forall p r, str_drop (String.length p) (p ++ r) = r.
Proof. induction p as [|a p IH]; intros r; simpl; auto. Qed.

Lemma split_once_no_sep : forall sep s,
  has_char sep s = false -> split_once sep s = [s].
Proof.
  intros sep s; induction s as [|c s IH]; simpl; intros H; [reflexivity|].
  apply orb_false_iff in H as [Hc Hs].
  rewrite Hc, (IH Hs). reflexivity.
Qed.

Lemma split_once_app : forall sep b k,
  has_char sep b = false -> split_once sep (b ++ String sep k) = [b; k].
Proof.
  intros sep b k; induction b as [|c b IH]; simpl; intros H.
  - rewrite Ascii.eqb_refl. reflexivity.
  - apply orb_false_iff in H as [Hc Hb].
    rewrite Hc, (IH Hb). reflexivity.
Qed.

Lemma split_once_cases : forall sep s,
  (split_once sep s = [s] /\ has_char sep s = false) \/
  (exists b k, split_once sep s = [b; k] /\ s = b ++ String sep k
               /\ has_char sep b = false).
Proof.
  intros sep s; induction s as [|c s IH]; simpl.
  - left; split; reflexivity.
  - destruct (Ascii.eqb c sep) eqn:Hc.
    + apply Ascii.eqb_eq in Hc; subst c.
      right. exists EmptyString, s. repeat split.
    + destruct IH as [[-> Hs] | (b & k & -> & -> & Hb)].
      * left. rewrite Hs. split; reflexivity.
      * right. exists (String c b), k. simpl. rewrite Hc, Hb. repeat split.
Qed.

(** What [parse_s3_uri] accepts, and what it returns. *)
Lemma parse_s3_uri_ok : forall s b k,
  parse_s3_uri s = Ok (b, k) <->
  s = S3_PREFIX ++ b ++ "/" ++ k /\ has_char slash b = false.
Proof.
  intros s b k; split.
  - unfold parse_s3_uri.
    destruct (String.prefix S3_PREFIX s) eqn:Hp; [|discriminate].
    pose proof (prefix_drop _ _ Hp) as Hs. simpl String.length in Hs.
    remember (str_drop 5 s) as r eqn:Er; clear Er.
    destruct (split_once_cases slash r)
      as [[-> _] | (b' & k' & -> & Hr & Hb)]; simpl; [discriminate|].
    intros Heq; inversion Heq; subst b' k'.
    split; [|exact Hb].
    rewrite Hs, Hr. reflexivity.
  - intros [-> Hb]. unfold parse_s3_uri.
    rewrite prefix_app; simpl negb; cbv iota.
    change (str_drop 5 (S3_PREFIX ++ b ++ "/" ++ k))
      with (str_drop (String.length S3_PREFIX) (S3_PREFIX ++ b ++ String slash k)).
    rewrite str_drop_app, (split_once_app slash b k Hb).
    destruct (split_once slash (b ++ String "/" k)) eqn:E;
      change "/"%char with slash in E; rewrite (split_once_app slash b k Hb) in E;
      inversion E; reflexivity.
Qed.

(** [parse_s3_uri] never leaves the computation undecided. *)
Lemma parse_s3_uri_decided : forall s,
  parse_s3_uri s <> Pending.
Proof.
  intros s; unfold parse_s3_uri.
  destruct (String.prefix S3_PREFIX s); [|discriminate].
  remember (str_drop 5 s) as r eqn:Er; clear Er.
  destruct (split_once slash r) as [|x [|y [|z l]]]; simpl; discriminate.
Qed.

(** ** [rstrip] lemmas *)

Lemma lstrip_chars_idem : forall c l,
  lstrip_chars c (lstrip_chars c l) = lstrip_chars c l.
Proof.
  intros c l; induction l as [|d l IH]; simpl; [reflexivity|].
  destruct (Ascii.eqb d c) eqn:Hd; [exact IH|].
  simpl. rewrite Hd. reflexivity.
Qed.

Lemma lstrip_chars_noop : forall c l,
  match l with d :: _ => Ascii.eqb d c = false | [] => True end ->
  lstrip_chars c l = l.
Proof.
  intros c [|d l] H; simpl; [reflexivity|]. rewrite H. reflexivity.
Qed.

Lemma rstrip_idem : forall c s, rstrip c (rstrip c s) = rstrip c s.
Proof.
  intros c s; unfold rstrip.
  rewrite list_ascii_of_string_of_list_ascii, rev_involutive, lstrip_chars_idem.
  reflexivity.
Qed.

(** * The claims *)

(** ** C1 *)

(** C1 (counterexample): [parse_s3_uri] accepts an empty bucket or an
    empty key: ["s3://bucket/"] gives [("bucket", "")] and ["s3:///key"]
    gives [("", "key")]; no [MalformedAddressError] is raised. *)
Lemma parse_accepts_empty_parts :
  parse_s3_uri "s3://bucket/" = Ok ("bucket", "") /\
  parse_s3_uri "s3:///key" = Ok ("", "key").
Proof. split; reflexivity. Qed.

(** C1 (amended): [parse_s3_uri s] returns [(bucket, key)] exactly when
    [s] is ["s3://" ++ bucket ++ "/" ++ key] with no ['/'] in [bucket];
    nothing requires [bucket] or [key] to be non-empty. *)
Theorem parse_s3_uri_accepts_exactly : forall s bucket key,
  parse_s3_uri s = Ok (bucket, key) <->
  s = "s3://" ++ bucket ++ "/" ++ key /\ has_char slash bucket = false.
Proof. intros s bucket key. apply parse_s3_uri_ok. Qed.

(** ** C3 *)

(** C3 (counterexample): a container containing ['/'] does not round-trip:
    ["s3://" ++ "a/b" ++ "/" ++ "c"] parses to [("a", "b/c")], not
    [("a/b", "c")]. *)
Lemma parse_roundtrip_fails_on_slash_container :
  parse_s3_uri ("s3://" ++ "a/b" ++ "/" ++ "c") = Ok ("a", "b/c") /\
  parse_s3_uri ("s3://" ++ "a/b" ++ "/" ++ "c") <> Ok ("a/b", "c").
Proof. split; [reflexivity | discriminate]. Qed.

(** C3 (amended): for a non-empty container without ['/'] and a non-empty
    key (which may itself contain ['/']), parsing
    ["s3://" ++ container ++ "/" ++ key] gives back [(container, key)]. *)
Theorem parse_s3_uri_roundtrip : forall container key,
  container <> "" -> key <> "" -> has_char slash container = false ->
  parse_s3_uri ("s3://" ++ container ++ "/" ++ key) = Ok (container, key).
Proof.
  intros container key _ _ Hc. apply parse_s3_uri_ok. split; [reflexivity | exact Hc].
Qed.

Lemma parse_s3_uri_roundtrip_witness :
  parse_s3_uri ("s3://" ++ "bucket" ++ "/" ++ "path/abc-123.csv")
  = Ok ("bucket", "path/abc-123.csv").
Proof.
  apply parse_s3_uri_roundtrip; [discriminate | discriminate | reflexivity].
Defined.

(** ** C7 *)

(** C7: [ensure_no_trailing_slash] is idempotent, leaves a string that does
    not end in ['/'] unchanged, and maps ["s3://foo/"] and ["s3://foo"] to
    the same value. *)
Theorem ensure_no_trailing_slash_idempotent :
  (forall s, ensure_no_trailing_slash (ensure_no_trailing_slash s)
             = ensure_no_trailing_slash s) /\
  (forall s, ends_with_slash s = false -> ensure_no_trailing_slash s = s) /\
  ensure_no_trailing_slash "s3://foo/" = ensure_no_trailing_slash "s3://foo".
Proof.
  split; [|split].
  - intros s. apply rstrip_idem.
  - intros s H. unfold ensure_no_trailing_slash, rstrip, ends_with_slash in *.
    rewrite lstrip_chars_noop.
    + rewrite rev_involutive. apply string_of_list_ascii_of_string.
    + destruct (rev (list_ascii_of_string s)); [exact I | exact H].
  - reflexivity.
Qed.

(** ** C8 *)

(** C8: [parse_s3_uri] raises [ValueError] on every input without the
    ["s3://"] prefix and on every ["s3://" ++ rest] whose [rest] has no
    ['/']; on every input it either returns a pair or raises, and being a
    function it is deterministic. *)
Theorem parse_s3_uri_rejects :
  (forall s, String.prefix "s3://" s = false ->
     parse_s3_uri s = Raise (ValueError "Invalid S3 URI. Must start with 's3://'")) /\
  (forall rest, has_char slash rest = false ->
     parse_s3_uri ("s3://" ++ rest) = Raise (ValueError "Invalid S3 URI format.")) /\
  (forall s, (exists bucket key, parse_s3_uri s = Ok (bucket, key)) \/
             (exists e, parse_s3_uri s = Raise e)).
Proof.
  split; [|split].
  - intros s H. unfold parse_s3_uri. change S3_PREFIX with "s3://". rewrite H. reflexivity.
  - intros rest H. unfold parse_s3_uri.
    rewrite prefix_app.
    change (str_drop 5 ("s3://" ++ rest))
      with (str_drop (String.length S3_PREFIX) (S3_PREFIX ++ rest)).
    rewrite str_drop_app, (split_once_no_sep slash rest H). reflexivity.
  - intros s. pose proof (parse_s3_uri_decided s) as Hd.
    destruct (parse_s3_uri s) as [[b k]|e|]; [left; eauto | right; eauto | congruence].
Qed.

(** ** The polling loop *)

Lemma waiting_not_terminal : forall s,
  in_list s WAITING = true -> in_list s TERMINAL = false.
Proof.
  intros s H. unfold in_list, WAITING in H; simpl in H.
  rewrite orb_false_r in H.
  apply orb_true_iff in H as [H|H]; apply String.eqb_eq in H; subst s; reflexivity.
Qed.

Lemma wait_loop_terminal : forall pre r post fuel qid status last w,
  in_list status WAITING = true ->
  List.length pre < fuel ->
  responses w = (pre ++ r :: post)%list ->
  forallb waiting pre = true ->
  terminal r = true ->
  wait_loop fuel qid status last w
  = (Ok (State r, Some r), after_polls w qid (List.length pre) post).
Proof.
  induction pre as [|p pre IH]; intros r post fuel qid status last w Hs Hf Hrs Hpre Hr.
  - destruct fuel as [|fuel]; [simpl in Hf; lia|].
    destruct w as [se id rs s3 lg]; simpl in Hrs; subst rs.
    cbn [wait_loop]. rewrite Hs. unfold bind, get_query_execution. cbn -[in_list].
    unfold terminal in Hr. rewrite Hr. reflexivity.
  - destruct fuel as [|fuel]; [simpl in Hf; lia|].
    simpl in Hpre. apply andb_true_iff in Hpre as [Hp Hpre].
    destruct w as [se id rs s3 lg]; simpl in Hrs; subst rs.
    cbn [wait_loop]. rewrite Hs. unfold bind at 1, get_query_execution. cbn -[in_list wait_loop].
    unfold waiting in Hp. rewrite (waiting_not_terminal _ Hp).
    unfold bind at 1, sleep. cbn -[in_list wait_loop].
    rewrite (IH r post fuel qid (State p) (Some p)); try assumption.
    + unfold after_polls, poll_events. simpl.
      rewrite <- !app_assoc. reflexivity.
    + simpl in Hf. lia.
    + reflexivity.
Qed.

Lemma known_not_terminal_waiting : forall r,
  known_state r = true -> terminal r = false -> waiting r = true.
Proof.
  intros [st rs]; unfold known_state, terminal, waiting, in_list, WAITING, TERMINAL; simpl.
  destruct (st =? "RUNNING"), (st =? "QUEUED"), (st =? "SUCCEEDED"),
           (st =? "FAILED"), (st =? "CANCELLED"); simpl; congruence.
Qed.

Lemma first_terminal_split : forall rs,
  forallb known_state rs = true -> existsb terminal rs = true ->
  exists pre r post, rs = (pre ++ r :: post)%list /\ forallb waiting pre = true
                     /\ terminal r = true.
Proof.
  induction rs as [|h rs IH]; simpl; intros Hk Ht; [discriminate|].
  apply andb_true_iff in Hk as [Hh Hk].
  destruct (terminal h) eqn:Hth.
  - exists [], h, rs. repeat split; assumption.
  - destruct (IH Hk Ht) as (pre & r & post & -> & Hpre & Hr).
    exists (h :: pre), r, post. simpl.
    rewrite (known_not_terminal_waiting h Hh Hth), Hpre. repeat split; assumption.
Qed.

Lemma count_get_calls_app : forall l1 l2,
  count_get_calls (l1 ++ l2) = count_get_calls l1 + count_get_calls l2.
Proof.
  induction l1 as [|[] l1 IH]; intros l2; simpl; rewrite ?IH; reflexivity.
Qed.

Lemma count_get_calls_poll_events : forall qid n,
  count_get_calls (poll_events qid n) = S n.
Proof.
  intros qid n; unfold poll_events.
  rewrite count_get_calls_app; simpl.
  induction n as [|n IH]; simpl; [reflexivity|]. rewrite IH. reflexivity.
Qed.

(** ** C6 *)

(** C6: when every answer of the service is one of the five Athena states
    and some answer is terminal, the polling loop of [execute_athena_query]
    (started, as in the source, on ["RUNNING"] with fuel to spare) returns;
    its answers split as [pre ++ r :: post] where [pre] are all
    [RUNNING]/[QUEUED] and [r] is the first terminal one; the loop stops on
    [r] with [post] unread, and its calls are [length pre + 1 >= 1]
    [get_query_execution]s, each but the last followed by a 2-second sleep. *)
Theorem polling_stops_at_first_terminal : forall w qid,
  forallb known_state (responses w) = true ->
  existsb terminal (responses w) = true ->
  exists pre r post,
    responses w = (pre ++ r :: post)%list /\
    forallb waiting pre = true /\ terminal r = true /\
    wait_loop (S (List.length (responses w))) qid "RUNNING" None w
      = (Ok (State r, Some r), after_polls w qid (List.length pre) post) /\
    count_get_calls (poll_events qid (List.length pre)) = S (List.length pre) /\
    1 <= count_get_calls (poll_events qid (List.length pre)).
Proof.
  intros w qid Hk Ht.
  destruct (first_terminal_split _ Hk Ht) as (pre & r & post & Hrs & Hpre & Hr).
  exists pre, r, post.
  rewrite count_get_calls_poll_events.
  repeat split; try assumption; [|lia].
  apply wait_loop_terminal; try assumption; [reflexivity|].
  rewrite Hrs, length_app; simpl; lia.
Qed.

Lemma polling_stops_at_first_terminal_witness :
  let w := mkWorld None "h1"
             [mkResponse "QUEUED" None; mkResponse "RUNNING" None;
              mkResponse "FAILED" (Some "boom"); mkResponse "SUCCEEDED" None]
             (fun _ _ => None) [] in
  forallb known_state (responses w) = true /\
  existsb terminal (responses w) = true /\
  exists pre r post,
    responses w = (pre ++ r :: post)%list /\
    forallb waiting pre = true /\ terminal r = true /\
    wait_loop (S (List.length (responses w))) "h1" "RUNNING" None w
      = (Ok (State r, Some r), after_polls w "h1" (List.length pre) post) /\
    count_get_calls (poll_events "h1" (List.length pre)) = S (List.length pre) /\
    1 <= count_get_calls (poll_events "h1" (List.length pre)).
Proof.
  intros w. split; [reflexivity|]. split; [reflexivity|].
  apply polling_stops_at_first_terminal; reflexivity.
Defined.

(** ** [execute_athena_query] once the query has reached a terminal state *)

Lemma execute_reaches_terminal : forall query database loc profile w pre r post,
  start_error w = None ->
  responses w = (pre ++ r :: post)%list ->
  forallb waiting pre = true ->
  terminal r = true ->
  execute_athena_query query database loc profile w
  = finish loc (query_execution_id w) (State r) (Some r)
      (after_polls
         (emit (EvStartQueryExecution query database loc) (emit (EvSession profile) w))
         (query_execution_id w) (List.length pre) post).
Proof.
  intros query database loc profile w pre r post Hse Hrs Hpre Hr.
  destruct w as [se id rs s3 lg]; simpl in Hse, Hrs; subst se rs.
  unfold execute_athena_query, bind, boto3_session, start_query_execution, polls_left.
  cbn -[wait_loop finish].
  rewrite (wait_loop_terminal pre r post); try assumption; try reflexivity.
  rewrite length_app; simpl; lia.
Qed.

(** ** C4 *)

(** C4: when the first terminal answer is [SUCCEEDED], [execute_athena_query]
    called, as [main] calls it, on the stripped output location returns that
    location, ["/"], the execution id and [".csv"]. *)
Theorem execute_success_result_address : forall query database o profile w pre r post,
  start_error w = None ->
  responses w = (pre ++ r :: post)%list ->
  forallb waiting pre = true ->
  State r = "SUCCEEDED" ->
  exists w',
    execute_athena_query query database (ensure_no_trailing_slash o) profile w
    = (Ok (ensure_no_trailing_slash o ++ "/" ++ query_execution_id w ++ ".csv"), w').
Proof.
  intros query database o profile w pre r post Hse Hrs Hpre Hs.
  assert (Hr : terminal r = true) by (unfold terminal; rewrite Hs; reflexivity).
  rewrite (execute_reaches_terminal query database _ profile w pre r post Hse Hrs Hpre Hr).
  unfold finish. rewrite Hs. simpl. eexists. reflexivity.
Qed.

Lemma execute_success_result_address_witness :
  exists w',
    execute_athena_query "SELECT 1" "db1" (ensure_no_trailing_slash "s3://bucket/path")
      "p" (mkWorld None "abc-123"
             [mkResponse "RUNNING" None; mkResponse "SUCCEEDED" None]
             (fun _ _ => None) [])
    = (Ok "s3://bucket/path/abc-123.csv", w').
Proof.
  exact (execute_success_result_address "SELECT 1" "db1" "s3://bucket/path" "p"
           (mkWorld None "abc-123"
              [mkResponse "RUNNING" None; mkResponse "SUCCEEDED" None]
              (fun _ _ => None) [])
           [mkResponse "RUNNING" None] (mkResponse "SUCCEEDED" None) []
           eq_refl eq_refl eq_refl eq_refl).
Defined.

(** ** A failed query in [main] *)

(** Whatever the arguments, when the first terminal answer is not
    [SUCCEEDED], [main] prints [Error: ] and the message of
    [query_failure_exn], returns normally, and never calls [download_file]. *)
Lemma main_query_failure : forall a w pre r post,
  start_error w = None ->
  responses w = (pre ++ r :: post)%list ->
  forallb waiting pre = true ->
  terminal r = true ->
  State r <> "SUCCEEDED" ->
  main a w
  = (Ok tt,
     emit (EvPrint ("Error: " ++ str_exn (query_failure_exn r)))
       (after_polls
          (emit (EvStartQueryExecution (arg_query a) (arg_database a)
                   (ensure_no_trailing_slash (arg_output_location a)))
             (emit (EvSession (arg_profile a)) w))
          (query_execution_id w) (List.length pre) post)).
Proof.
  intros a w pre r post Hse Hrs Hpre Hr Hs.
  unfold main, try_except, main_body, bind at 1.
  rewrite (execute_reaches_terminal _ _ _ _ w pre r post Hse Hrs Hpre Hr).
  unfold finish. apply String.eqb_neq in Hs. rewrite Hs.
  unfold query_failure_exn.
  destruct (StateChangeReason r); reflexivity.
Qed.

Lemma main_query_failure_no_download : forall a w pre r post,
  start_error w = None ->
  responses w = (pre ++ r :: post)%list ->
  forallb waiting pre = true ->
  terminal r = true ->
  State r <> "SUCCEEDED" ->
  no_download (log w) = true ->
  no_download (log (snd (main a w))) = true.
Proof.
  intros a w pre r post Hse Hrs Hpre Hr Hs Hl.
  rewrite (main_query_failure a w pre r post Hse Hrs Hpre Hr Hs).
  destruct w as [se id rs s3 lg]; simpl in *.
  unfold no_download in *.
  rewrite !forallb_app, Hl. simpl.
  unfold poll_events. rewrite forallb_app. simpl.
  induction (List.length pre) as [|n IH]; [reflexivity|]. exact IH.
Qed.

(** ** C2 *)

(** C2 (code_bug): a [CANCELLED] answer without a [StateChangeReason] key
    makes the [else] branch of [execute_athena_query] fail on the dictionary
    lookup: [main] prints [Error: 'StateChangeReason'], a [KeyError]
    message that carries neither the status nor a reason. *)
Theorem main_cancelled_without_reason :
  let w := mkWorld None "h1"
             [mkResponse "RUNNING" None; mkResponse "CANCELLED" None]
             (fun _ _ => None) [] in
  main (mkArgs "SELECT 1" "db1" "s3://b/out" "p" "out.csv") w
  = (Ok tt,
     mkWorld None "h1" [] (fun _ _ => None)
       [EvSession "p"; EvStartQueryExecution "SELECT 1" "db1" "s3://b/out";
        EvGetQueryExecution "h1"; EvSleep 2; EvGetQueryExecution "h1";
        EvPrint "Error: 'StateChangeReason'"]).
Proof. reflexivity. Qed.

(** ** C5 *)

(** C5: whatever the arguments and the services do, [main] lets no
    exception escape: when the body of its [try] raises [e], [main] prints
    exactly [Error: ] followed by [str(e)] and returns, so the process exits
    with status 0. *)
Theorem main_catches_every_error : forall a w,
  (forall e w', main_body a w = (Raise e, w') ->
     main a w = (Ok tt, emit (EvPrint ("Error: " ++ str_exn e)) w') /\
     exit_code (fst (main a w)) = Some 0) /\
  (forall e w', main a w <> (Raise e, w')).
Proof.
  intros a w. unfold main, try_except.
  split.
  - intros e w' H. rewrite H. split; reflexivity.
  - intros e w'. destruct (main_body a w) as [[x|e'|] w''].
    + discriminate.
    + unfold print. discriminate.
    + discriminate.
Qed.

(** ** C9 *)

(** C9: the default profile is ["aberezin"] when [AWS_PROFILE] is unset and
    the variable's value, unchanged, when it is set; it is what [args.profile]
    holds when [--profile] is not given. *)
Theorem default_profile_resolution : forall env : environ,
  (env "AWS_PROFILE" = None -> DEFAULT_PROFILE env = "aberezin") /\
  (forall v, env "AWS_PROFILE" = Some v -> DEFAULT_PROFILE env = v) /\
  (forall query database output_location output_file,
     arg_profile (parse_args env query database output_location None output_file)
     = DEFAULT_PROFILE env).
Proof.
  intros env. unfold DEFAULT_PROFILE. split; [|split].
  - intros H. rewrite H. reflexivity.
  - intros v H. rewrite H. reflexivity.
  - reflexivity.
Qed.

(** ** C10 *)

Lemma parse_s3_uri_single_slash : forall qid,
  starts_with_slash qid = false ->
  parse_s3_uri ("s3:" ++ "/" ++ qid ++ ".csv")
  = Raise (ValueError "Invalid S3 URI. Must start with 's3://'").
Proof.
  intros qid H. unfold parse_s3_uri.
  destruct (String.prefix S3_PREFIX ("s3:" ++ "/" ++ qid ++ ".csv")) eqn:Hp;
    [|reflexivity].
  exfalso. apply prefix_drop in Hp. simpl in Hp.
  destruct qid as [|c qid]; simpl in Hp; inversion Hp; subst c.
  discriminate H.
Qed.

(** C10: [ensure_no_trailing_slash] turns the bare prefix ["s3://"] into
    ["s3:"]; when the query then succeeds with an execution id not starting
    with ['/'] (Athena ids are UUIDs), the derived address
    ["s3:/" ++ id ++ ".csv"] lacks the prefix, [parse_s3_uri] rejects it,
    and [main] prints the [ValueError] message without any download. *)
Theorem bare_prefix_location_rejected : forall a w pre r post,
  arg_output_location a = "s3://" ->
  start_error w = None ->
  responses w = (pre ++ r :: post)%list ->
  forallb waiting pre = true ->
  State r = "SUCCEEDED" ->
  starts_with_slash (query_execution_id w) = false ->
  ensure_no_trailing_slash "s3://" = "s3:" /\
  parse_s3_uri ("s3:" ++ "/" ++ query_execution_id w ++ ".csv")
    = Raise (ValueError "Invalid S3 URI. Must start with 's3://'") /\
  main a w
  = (Ok tt,
     emit (EvPrint "Error: Invalid S3 URI. Must start with 's3://'")
       (emit (EvSession (arg_profile a))
          (emit (EvPrint ("Query succeeded. Result saved in: s3:/"
                          ++ query_execution_id w ++ ".csv"))
             (after_polls
                (emit (EvStartQueryExecution (arg_query a) (arg_database a) "s3:")
                   (emit (EvSession (arg_profile a)) w))
                (query_execution_id w) (List.length pre) post)))).
Proof.
  intros a w pre r post Ho Hse Hrs Hpre Hs Hid.
  assert (Hr : terminal r = true) by (unfold terminal; rewrite Hs; reflexivity).
  pose proof (parse_s3_uri_single_slash _ Hid) as Hparse.
  split; [reflexivity|]. split; [exact Hparse|].
  unfold main, try_except, main_body, bind at 1.
  rewrite (execute_reaches_terminal _ _ _ _ w pre r post Hse Hrs Hpre Hr).
  unfold finish. rewrite Hs, Ho.
  change (ensure_no_trailing_slash "s3://") with "s3:".
  unfold download_csv_from_s3, bind, lift, boto3_session, print, ret.
  cbn -[parse_s3_uri after_polls emit].
  cbn -[parse_s3_uri] in Hparse. rewrite Hparse. reflexivity.
Qed.

Lemma bare_prefix_location_rejected_witness :
  let a := mkArgs "SELECT 1" "db1" "s3://" "p" "out.csv" in
  let w := mkWorld None "h1" [mkResponse "QUEUED" None; mkResponse "SUCCEEDED" None]
             (fun _ _ => None) [] in
  ensure_no_trailing_slash "s3://" = "s3:" /\
  parse_s3_uri ("s3:" ++ "/" ++ query_execution_id w ++ ".csv")
    = Raise (ValueError "Invalid S3 URI. Must start with 's3://'") /\
  main a w
  = (Ok tt,
     emit (EvPrint "Error: Invalid S3 URI. Must start with 's3://'")
       (emit (EvSession (arg_profile a))
          (emit (EvPrint ("Query succeeded. Result saved in: s3:/"
                          ++ query_execution_id w ++ ".csv"))
             (after_polls
                (emit (EvStartQueryExecution (arg_query a) (arg_database a) "s3:")
                   (emit (EvSession (arg_profile a)) w))
                (query_execution_id w) (List.length [mkResponse "QUEUED" None]) [])))).
Proof.
  intros a w.
  exact (bare_prefix_location_rejected a w [mkResponse "QUEUED" None]
           (mkResponse "SUCCEEDED" None) [] eq_refl eq_refl eq_refl eq_refl eq_refl eq_refl).
Defined.

(** * Further properties of the module *)

(** ** The polling loop on other answers *)

(** An answer whose state is neither waiting nor terminal: the loop sleeps
    once more, then its [while] test fails. *)
Lemma wait_loop_other : forall pre r post fuel qid status last w,
  in_list status WAITING = true ->
  List.length pre < fuel ->
  responses w = (pre ++ r :: post)%list ->
  forallb waiting pre = true ->
  terminal r = false ->
  waiting r = false ->
  wait_loop fuel qid status last w
  = (Ok (State r, Some r), emit (EvSleep 2) (after_polls w qid (List.length pre) post)).
Proof.
  induction pre as [|p pre IH]; intros r post fuel qid status last w Hs Hf Hrs Hpre Ht Hw.
  - destruct fuel as [|fuel]; [simpl in Hf; lia|].
    destruct w as [se id rs s3 lg]; simpl in Hrs; subst rs.
    cbn [wait_loop]. rewrite Hs. unfold bind, get_query_execution. cbn -[in_list wait_loop].
    unfold terminal in Ht. rewrite Ht.
    unfold sleep. cbn -[in_list].
    destruct fuel; cbn [wait_loop]; unfold waiting in Hw; rewrite Hw; reflexivity.
  - destruct fuel as [|fuel]; [simpl in Hf; lia|].
    simpl in Hpre. apply andb_true_iff in Hpre as [Hp Hpre].
    destruct w as [se id rs s3 lg]; simpl in Hrs; subst rs.
    cbn [wait_loop]. rewrite Hs. unfold bind at 1, get_query_execution. cbn -[in_list wait_loop].
    unfold waiting in Hp. rewrite (waiting_not_terminal _ Hp).
    unfold bind at 1, sleep. cbn -[in_list wait_loop].
    rewrite (IH r post fuel qid (State p) (Some p)); try assumption.
    + unfold after_polls, poll_events, emit. simpl.
      rewrite <- !app_assoc. simpl. rewrite <- !app_assoc. reflexivity.
    + simpl in Hf. lia.
    + reflexivity.
Qed.

(** When every answer says [RUNNING] or [QUEUED], the loop polls them all,
    sleeping after each, and is still waiting when they run out. *)
Lemma wait_loop_all_waiting : forall rs fuel qid status last w,
  in_list status WAITING = true ->
  List.length rs < fuel ->
  responses w = rs ->
  forallb waiting rs = true ->
  wait_loop fuel qid status last w
  = (Pending,
     mkWorld (start_error w) (query_execution_id w) [] (s3_error w)
       (log w ++ concat (repeat [EvGetQueryExecution qid; EvSleep 2] (List.length rs))
        ++ [EvGetQueryExecution qid])%list).
Proof.
  induction rs as [|p rs IH]; intros fuel qid status last w Hs Hf Hrs Hall.
  - destruct fuel as [|fuel]; [simpl in Hf; lia|].
    destruct w as [se id rs0 s3 lg]; simpl in Hrs; subst rs0.
    cbn [wait_loop]. rewrite Hs. reflexivity.
  - destruct fuel as [|fuel]; [simpl in Hf; lia|].
    simpl in Hall. apply andb_true_iff in Hall as [Hp Hall].
    destruct w as [se id rs0 s3 lg]; simpl in Hrs; subst rs0.
    cbn [wait_loop]. rewrite Hs. unfold bind at 1, get_query_execution. cbn -[in_list wait_loop].
    unfold waiting in Hp. rewrite (waiting_not_terminal _ Hp).
    unfold bind at 1, sleep. cbn -[in_list wait_loop].
    rewrite (IH fuel qid (State p) (Some p)); try assumption.
    + simpl. rewrite <- !app_assoc. reflexivity.
    + simpl in Hf. lia.
    + reflexivity.
Qed.

(** ** [execute_athena_query] on a status outside the Athena states *)

(** An answer whose state is none of [RUNNING], [QUEUED], [SUCCEEDED],
    [FAILED], [CANCELLED] ends the polling after one more 2-second sleep,
    and [execute_athena_query] raises for it as for a failed query. *)
Theorem execute_unknown_status : forall query database loc profile w pre r post,
  start_error w = None ->
  responses w = (pre ++ r :: post)%list ->
  forallb waiting pre = true ->
  known_state r = false ->
  execute_athena_query query database loc profile w
  = (Raise (query_failure_exn r),
     emit (EvSleep 2)
       (after_polls
          (emit (EvStartQueryExecution query database loc) (emit (EvSession profile) w))
          (query_execution_id w) (List.length pre) post)).
Proof.
  intros query database loc profile w pre r post Hse Hrs Hpre Hk.
  unfold known_state, in_list in Hk. rewrite existsb_app in Hk.
  apply orb_false_iff in Hk as [Hw Ht].
  destruct w as [se id rs s3 lg]; simpl in Hse, Hrs; subst se rs.
  unfold execute_athena_query, bind, boto3_session, start_query_execution, polls_left.
  cbn -[wait_loop finish].
  rewrite (wait_loop_other pre r post); try assumption; try reflexivity.
  - unfold finish.
    destruct (String.eqb (State r) "SUCCEEDED") eqn:E.
    + apply String.eqb_eq in E. unfold TERMINAL in Ht. rewrite E in Ht.
      discriminate.
    + unfold query_failure_exn. destruct (StateChangeReason r); reflexivity.
  - rewrite length_app; simpl; lia.
Qed.

Lemma execute_unknown_status_witness :
  execute_athena_query "SELECT 1" "db1" "s3://b/out" "p"
    (mkWorld None "h1" [mkResponse "QUEUED" None; mkResponse "PAUSED" (Some "odd")]
       (fun _ _ => None) [])
  = (Raise (query_failure_exn (mkResponse "PAUSED" (Some "odd"))),
     emit (EvSleep 2)
       (after_polls
          (emit (EvStartQueryExecution "SELECT 1" "db1" "s3://b/out")
             (emit (EvSession "p")
                (mkWorld None "h1" [mkResponse "QUEUED" None; mkResponse "PAUSED" (Some "odd")]
                   (fun _ _ => None) [])))
          "h1" (List.length [mkResponse "QUEUED" None]) [])).
Proof.
  exact (execute_unknown_status "SELECT 1" "db1" "s3://b/out" "p"
           (mkWorld None "h1" [mkResponse "QUEUED" None; mkResponse "PAUSED" (Some "odd")]
              (fun _ _ => None) [])
           [mkResponse "QUEUED" None] (mkResponse "PAUSED" (Some "odd")) []
           eq_refl eq_refl eq_refl eq_refl).
Defined.

(** ** Unbounded polling *)

(** While the service answers only [RUNNING] or [QUEUED], [main] keeps
    polling, sleeping 2 seconds after every answer; it has printed nothing,
    has not downloaded, and has not exited when the answers run out. *)
Theorem main_polls_without_bound : forall a w,
  start_error w = None ->
  forallb waiting (responses w) = true ->
  main a w
  = (Pending,
     mkWorld None (query_execution_id w) [] (s3_error w)
       (log w ++
        [EvSession (arg_profile a);
         EvStartQueryExecution (arg_query a) (arg_database a)
           (ensure_no_trailing_slash (arg_output_location a))]
        ++ concat (repeat [EvGetQueryExecution (query_execution_id w); EvSleep 2]
                     (List.length (responses w)))
        ++ [EvGetQueryExecution (query_execution_id w)])%list)
  /\ exit_code (fst (main a w)) = None.
Proof.
  intros a w Hse Hall.
  assert (H : main a w
    = (Pending,
       mkWorld None (query_execution_id w) [] (s3_error w)
         (log w ++
          [EvSession (arg_profile a);
           EvStartQueryExecution (arg_query a) (arg_database a)
             (ensure_no_trailing_slash (arg_output_location a))]
          ++ concat (repeat [EvGetQueryExecution (query_execution_id w); EvSleep 2]
                       (List.length (responses w)))
          ++ [EvGetQueryExecution (query_execution_id w)])%list)).
  { destruct w as [se id rs s3 lg]; simpl in Hse, Hall |- *; subst se.
    unfold main, try_except, main_body, bind at 1.
    unfold execute_athena_query, bind, boto3_session, start_query_execution, polls_left.
    cbn -[wait_loop finish].
    rewrite (wait_loop_all_waiting rs); try assumption; try reflexivity; [|lia].
    simpl. rewrite <- !app_assoc. reflexivity. }
  split; [exact H|]. rewrite H. reflexivity.
Qed.

Lemma main_polls_without_bound_witness :
  let a := mkArgs "SELECT 1" "db1" "s3://b/out" "p" "out.csv" in
  let w := mkWorld None "h1" [mkResponse "QUEUED" None; mkResponse "RUNNING" None]
             (fun _ _ => None) [] in
  main a w
  = (Pending,
     mkWorld None (query_execution_id w) [] (s3_error w)
       (log w ++
        [EvSession (arg_profile a);
         EvStartQueryExecution (arg_query a) (arg_database a)
           (ensure_no_trailing_slash (arg_output_location a))]
        ++ concat (repeat [EvGetQueryExecution (query_execution_id w); EvSleep 2]
                     (List.length (responses w)))
        ++ [EvGetQueryExecution (query_execution_id w)])%list)
  /\ exit_code (fst (main a w)) = None.
Proof.
  intros a w. exact (main_polls_without_bound a w eq_refl eq_refl).
Defined.

(** ** A failed submission *)

(** When [start_query_execution] raises, [main] prints [Error: ] and its
    message right away: no status is polled and nothing is downloaded. *)
Theorem main_start_failure : forall a w m,
  start_error w = Some m ->
  main a w
  = (Ok tt,
     emit (EvPrint ("Error: " ++ m))
       (emit (EvStartQueryExecution (arg_query a) (arg_database a)
                (ensure_no_trailing_slash (arg_output_location a)))
          (emit (EvSession (arg_profile a)) w))).
Proof.
  intros a w m Hse.
  destruct w as [se id rs s3 lg]; simpl in Hse; subst se.
  reflexivity.
Qed.

Lemma main_start_failure_witness :
  main (mkArgs "SELECT 1" "db1" "s3://b/out/" "p" "out.csv")
    (mkWorld (Some "AccessDenied") "h1" [mkResponse "SUCCEEDED" None] (fun _ _ => None) [])
  = (Ok tt,
     emit (EvPrint ("Error: " ++ "AccessDenied"))
       (emit (EvStartQueryExecution "SELECT 1" "db1"
                (ensure_no_trailing_slash "s3://b/out/"))
          (emit (EvSession "p")
             (mkWorld (Some "AccessDenied") "h1" [mkResponse "SUCCEEDED" None]
                (fun _ _ => None) [])))).
Proof.
  exact (main_start_failure (mkArgs "SELECT 1" "db1" "s3://b/out/" "p" "out.csv")
           (mkWorld (Some "AccessDenied") "h1" [mkResponse "SUCCEEDED" None]
              (fun _ _ => None) [])
           "AccessDenied" eq_refl).
Defined.

(** ** A successful run of [main] *)

Lemma main_success_run : forall a w pre r post bucket key,
  start_error w = None ->
  responses w = (pre ++ r :: post)%list ->
  forallb waiting pre = true ->
  State r = "SUCCEEDED" ->
  parse_s3_uri (ensure_no_trailing_slash (arg_output_location a) ++ "/"
                ++ query_execution_id w ++ ".csv") = Ok (bucket, key) ->
  main a w
  = (Ok tt,
     emit (EvPrint (match s3_error w bucket key with
                    | None => "CSV downloaded successfully to: " ++ arg_output_file a
                    | Some m => "Error: " ++ m
                    end))
       (emit (EvDownloadFile bucket key (arg_output_file a))
          (emit (EvSession (arg_profile a))
             (emit (EvPrint ("Query succeeded. Result saved in: "
                             ++ ensure_no_trailing_slash (arg_output_location a) ++ "/"
                             ++ query_execution_id w ++ ".csv"))
                (after_polls
                   (emit (EvStartQueryExecution (arg_query a) (arg_database a)
                            (ensure_no_trailing_slash (arg_output_location a)))
                      (emit (EvSession (arg_profile a)) w))
                   (query_execution_id w) (List.length pre) post))))).
Proof.
  intros a w pre r post bucket key Hse Hrs Hpre Hs Hparse.
  assert (Hr : terminal r = true) by (unfold terminal; rewrite Hs; reflexivity).
  unfold main, try_except, main_body, bind at 1.
  rewrite (execute_reaches_terminal _ _ _ _ w pre r post Hse Hrs Hpre Hr).
  unfold finish. rewrite Hs.
  remember (ensure_no_trailing_slash (arg_output_location a) ++ "/"
            ++ query_execution_id w ++ ".csv") as addr eqn:Ea.
  unfold download_csv_from_s3, bind, lift, boto3_session, print, ret.
  cbn -[parse_s3_uri after_polls emit download_file].
  rewrite Hparse.
  unfold download_file.
  destruct w as [se id rs s3 lg]. cbn.
  destruct (s3 bucket key); reflexivity.
Qed.

(** When the query succeeds and the derived address
    [stripped location ++ "/" ++ id ++ ".csv"] parses to [(bucket, key)],
    [main] prints the address, downloads [key] of [bucket] to the output
    file, and prints either the success line or [Error: ] and the message of
    [download_file]; it returns normally in both cases. *)
Theorem main_success_downloads : forall a w pre r post bucket key,
  start_error w = None ->
  responses w = (pre ++ r :: post)%list ->
  forallb waiting pre = true ->
  State r = "SUCCEEDED" ->
  parse_s3_uri (ensure_no_trailing_slash (arg_output_location a) ++ "/"
                ++ query_execution_id w ++ ".csv") = Ok (bucket, key) ->
  main a w
  = (Ok tt,
     emit (EvPrint (match s3_error w bucket key with
                    | None => "CSV downloaded successfully to: " ++ arg_output_file a
                    | Some m => "Error: " ++ m
                    end))
       (emit (EvDownloadFile bucket key (arg_output_file a))
          (emit (EvSession (arg_profile a))
             (emit (EvPrint ("Query succeeded. Result saved in: "
                             ++ ensure_no_trailing_slash (arg_output_location a) ++ "/"
                             ++ query_execution_id w ++ ".csv"))
                (after_polls
                   (emit (EvStartQueryExecution (arg_query a) (arg_database a)
                            (ensure_no_trailing_slash (arg_output_location a)))
                      (emit (EvSession (arg_profile a)) w))
                   (query_execution_id w) (List.length pre) post))))).
Proof.
  intros a w pre r post bucket key Hse Hrs Hpre Hs Hparse.
  exact (main_success_run a w pre r post bucket key Hse Hrs Hpre Hs Hparse).
Qed.

Lemma main_success_downloads_witness :
  main (mkArgs "SELECT 1" "db1" "s3://b/out/" "p" "out.csv") scenario_world
  = (Ok tt,
     emit (EvPrint (match s3_error scenario_world "b" "out/h1.csv" with
                    | None => "CSV downloaded successfully to: " ++ "out.csv"
                    | Some m => "Error: " ++ m
                    end))
       (emit (EvDownloadFile "b" "out/h1.csv" "out.csv")
          (emit (EvSession "p")
             (emit (EvPrint ("Query succeeded. Result saved in: "
                             ++ ensure_no_trailing_slash "s3://b/out/" ++ "/"
                             ++ query_execution_id scenario_world ++ ".csv"))
                (after_polls
                   (emit (EvStartQueryExecution "SELECT 1" "db1"
                            (ensure_no_trailing_slash "s3://b/out/"))
                      (emit (EvSession "p") scenario_world))
                   (query_execution_id scenario_world)
                   (List.length [mkResponse "RUNNING" None]) []))))).
Proof.
  exact (main_success_downloads (mkArgs "SELECT 1" "db1" "s3://b/out/" "p" "out.csv")
           scenario_world [mkResponse "RUNNING" None] (mkResponse "SUCCEEDED" None) []
           "b" "out/h1.csv" eq_refl eq_refl eq_refl eq_refl eq_refl).
Defined.

(** ** The default output location *)

(** Without [--output-location], a query that succeeds with id [id] has its
    result downloaded from bucket ["foo"] under key [id ++ ".csv"], for any
    id, to the output file. *)
Theorem main_default_location_downloads :
  forall env query database profile output_file w pre r post,
  start_error w = None ->
  responses w = (pre ++ r :: post)%list ->
  forallb waiting pre = true ->
  State r = "SUCCEEDED" ->
  let a := parse_args env query database None profile output_file in
  exists w', main a w = (Ok tt, w') /\
    In (EvDownloadFile "foo" (query_execution_id w ++ ".csv") (arg_output_file a)) (log w').
Proof.
  intros env query database profile output_file w pre r post Hse Hrs Hpre Hs a.
  assert (Hparse : parse_s3_uri (ensure_no_trailing_slash (arg_output_location a) ++ "/"
                     ++ query_execution_id w ++ ".csv")
                   = Ok ("foo", query_execution_id w ++ ".csv")).
  { apply parse_s3_uri_ok. split; reflexivity. }
  rewrite (main_success_run a w pre r post _ _ Hse Hrs Hpre Hs Hparse).
  eexists. split; [reflexivity|].
  unfold emit. cbn [log]. rewrite !in_app_iff. simpl. tauto.
Qed.

Lemma main_default_location_downloads_witness :
  exists w',
    main (parse_args (fun _ => None) "SELECT 1" None None None None) scenario_world = (Ok tt, w') /\
    In (EvDownloadFile "foo" (query_execution_id scenario_world ++ ".csv")
          (arg_output_file (parse_args (fun _ => None) "SELECT 1" None None None None)))
       (log w').
Proof.
  exact (main_default_location_downloads (fun _ => None) "SELECT 1" None None None
           scenario_world [mkResponse "RUNNING" None] (mkResponse "SUCCEEDED" None) []
           eq_refl eq_refl eq_refl eq_refl).
Defined.

(** ** A failed query: the printed message *)

Lemma no_download_app : forall l1 l2,
  no_download (l1 ++ l2) = no_download l1 && no_download l2.
Proof. intros l1 l2. unfold no_download. apply forallb_app. Qed.

Lemma no_download_poll_events : forall qid n, no_download (poll_events qid n) = true.
Proof.
  intros qid n. unfold poll_events. rewrite no_download_app.
  induction n as [|n IH]; [reflexivity|]. exact IH.
Qed.

(** When the first terminal answer is [FAILED] or [CANCELLED], [main]'s
    last effect is the line [Error: Query <status>: <reason>] when the
    service gave a reason and [Error: 'StateChangeReason'] when it did not;
    [main] returns normally and adds no [download_file] call. *)
Theorem main_failure_message : forall a w pre r post,
  start_error w = None ->
  responses w = (pre ++ r :: post)%list ->
  forallb waiting pre = true ->
  in_list (State r) ["FAILED"; "CANCELLED"] = true ->
  exists w',
    main a w = (Ok tt, w') /\
    (exists earlier,
       log w' = (earlier ++
         [EvPrint ("Error: " ++
            match StateChangeReason r with
            | Some reason => "Query " ++ State r ++ ": " ++ reason
            | None => "'StateChangeReason'"
            end)])%list) /\
    no_download (log w') = no_download (log w).
Proof.
  intros a w pre r post Hse Hrs Hpre Hfc.
  assert (Hr : terminal r = true).
  { unfold terminal, in_list, TERMINAL. unfold in_list in Hfc. simpl in *.
    rewrite Hfc. apply orb_true_r. }
  assert (Hs : State r <> "SUCCEEDED").
  { intros E. rewrite E in Hfc. discriminate. }
  rewrite (main_query_failure a w pre r post Hse Hrs Hpre Hr Hs).
  eexists. split; [reflexivity|]. split.
  - eexists. unfold query_failure_exn.
    destruct (StateChangeReason r); reflexivity.
  - destruct w as [se id rs s3 lg]. unfold emit, after_polls. cbn [log].
    rewrite !no_download_app, no_download_poll_events. simpl.
    rewrite !andb_true_r. reflexivity.
Qed.

Lemma main_failure_message_witness :
  exists w',
    main (mkArgs "SELECT 1" "db1" "s3://b/out" "p" "out.csv")
      (mkWorld None "h1" [mkResponse "RUNNING" None; mkResponse "FAILED" (Some "SYNTAX_ERROR")]
         (fun _ _ => None) []) = (Ok tt, w') /\
    (exists earlier,
       log w' = (earlier ++
         [EvPrint ("Error: " ++
            match StateChangeReason (mkResponse "FAILED" (Some "SYNTAX_ERROR")) with
            | Some reason => "Query " ++ State (mkResponse "FAILED" (Some "SYNTAX_ERROR"))
                             ++ ": " ++ reason
            | None => "'StateChangeReason'"
            end)])%list) /\
    no_download (log w')
    = no_download (log (mkWorld None "h1"
                          [mkResponse "RUNNING" None; mkResponse "FAILED" (Some "SYNTAX_ERROR")]
                          (fun _ _ => None) [])).
Proof.
  exact (main_failure_message (mkArgs "SELECT 1" "db1" "s3://b/out" "p" "out.csv")
           (mkWorld None "h1" [mkResponse "RUNNING" None; mkResponse "FAILED" (Some "SYNTAX_ERROR")]
              (fun _ _ => None) [])
           [mkResponse "RUNNING" None] (mkResponse "FAILED" (Some "SYNTAX_ERROR")) []
           eq_refl eq_refl eq_refl eq_refl).
Defined.

(** ** What [ensure_no_trailing_slash] removes *)

Lemma string_of_list_ascii_app : forall l1 l2,
  string_of_list_ascii (l1 ++ l2) = string_of_list_ascii l1 ++ string_of_list_ascii l2.
Proof. induction l1 as [|c l1 IH]; intros l2; simpl; [reflexivity|]. rewrite IH. reflexivity. Qed.

Lemma lstrip_chars_split : forall c l,
  exists n, l = (repeat c n ++ lstrip_chars c l)%list /\
    match lstrip_chars c l with d :: _ => Ascii.eqb d c = false | [] => True end.
Proof.
  intros c l; induction l as [|d l IH]; simpl.
  - exists 0. split; [reflexivity | exact I].
  - destruct (Ascii.eqb d c) eqn:Hd.
    + destruct IH as [n [Hl Hh]]. exists (S n). split; [|exact Hh].
      apply Ascii.eqb_eq in Hd. subst d. simpl. rewrite <- Hl. reflexivity.
    + exists 0. split; [reflexivity | exact Hd].
Qed.

(** [ensure_no_trailing_slash s] never ends in ['/'], and [s] is it followed
    by nothing but slashes: only trailing ['/'] are removed, all of them
    (so a string of slashes becomes [""]). *)
Theorem ensure_no_trailing_slash_spec : forall s,
  ends_with_slash (ensure_no_trailing_slash s) = false /\
  exists n, s = ensure_no_trailing_slash s ++ slashes n.
Proof.
  intros s. unfold ensure_no_trailing_slash, rstrip, ends_with_slash, slashes.
  destruct (lstrip_chars_split slash (rev (list_ascii_of_string s))) as [n [Hl Hh]].
  split.
  - rewrite list_ascii_of_string_of_list_ascii, rev_involutive.
    destruct (lstrip_chars slash (rev (list_ascii_of_string s))); [reflexivity | exact Hh].
  - exists n. rewrite <- string_of_list_ascii_app.
    rewrite <- (string_of_list_ascii_of_string s) at 1. f_equal.
    rewrite <- (rev_involutive (list_ascii_of_string s)) at 1.
    rewrite Hl at 1. rewrite rev_app_distr, rev_repeat. reflexivity.
Qed.

(** ** The errors of [parse_s3_uri] *)

(** [parse_s3_uri] raises only its two [ValueError]s: the prefix one exactly
    when ["s3://"] is missing, the format one exactly when the text after
    the prefix has no ['/']. *)
Theorem parse_s3_uri_errors : forall s e,
  parse_s3_uri s = Raise e ->
  (String.prefix "s3://" s = false /\
   e = ValueError "Invalid S3 URI. Must start with 's3://'") \/
  (exists rest, s = "s3://" ++ rest /\ has_char slash rest = false /\
                e = ValueError "Invalid S3 URI format.").
Proof.
  intros s e. unfold parse_s3_uri.
  destruct (String.prefix S3_PREFIX s) eqn:Hp.
  - pose proof (prefix_drop _ _ Hp) as Hs. simpl String.length in Hs.
    remember (str_drop 5 s) as r eqn:Er; clear Er.
    destruct (split_once_cases slash r) as [[-> Hr] | (b & k & -> & _ & _)];
      simpl; [|discriminate].
    intros He. inversion He. right. exists r. repeat split; assumption.
  - intros He. inversion He. left. split; [exact Hp | reflexivity].
Qed.

Lemma parse_s3_uri_errors_witness :
  parse_s3_uri "s3://bucket" = Raise (ValueError "Invalid S3 URI format.") /\
  ((String.prefix "s3://" "s3://bucket" = false /\
    ValueError "Invalid S3 URI format." = ValueError "Invalid S3 URI. Must start with 's3://'") \/
   (exists rest, "s3://bucket" = "s3://" ++ rest /\ has_char slash rest = false /\
                 ValueError "Invalid S3 URI format." = ValueError "Invalid S3 URI format.")).
Proof.
  split; [reflexivity|].
  apply parse_s3_uri_errors. reflexivity.
Defined.
